(** * direct-csi: the node server of [pkg/node/node.go]

  A shallow embedding of the three RPCs of the node server
  ([NodeGetInfo], [NodeGetCapabilities], [NodePublishVolume]) together
  with the parts of the gRPC [codes]/[status] packages, of the CSI
  message types and of package [volume] that they use. *)

From stdpp Require Import gmap strings list fin_maps.

Local Open Scope string_scope.

(** [p != nil] and [p == nil] on a pointer that may be nil. *)
Definition notNil {A : Type} (p : option A) : bool :=
  match p with Some _ => true | None => false end.

Definition isNil {A : Type} (p : option A) : bool := negb (notNil p).

(** ** google.golang.org/grpc/codes *)
Module codes.

Inductive Code : Type :=
| OK | Canceled | Unknown | InvalidArgument | DeadlineExceeded | NotFound
| AlreadyExists | PermissionDenied | ResourceExhausted | FailedPrecondition
| Aborted | OutOfRange | Unimplemented | Internal | Unavailable | DataLoss
| Unauthenticated.

#[global] Instance Code_eq_dec : EqDecision Code.
Proof. solve_decision. Defined.

(** [Code.String()] *)
Definition Code_String (c : Code) : string :=
  match c with
  | OK => "OK" | Canceled => "Canceled" | Unknown => "Unknown"
  | InvalidArgument => "InvalidArgument"
  | DeadlineExceeded => "DeadlineExceeded" | NotFound => "NotFound"
  | AlreadyExists => "AlreadyExists"
  | PermissionDenied => "PermissionDenied"
  | ResourceExhausted => "ResourceExhausted"
  | FailedPrecondition => "FailedPrecondition" | Aborted => "Aborted"
  | OutOfRange => "OutOfRange" | Unimplemented => "Unimplemented"
  | Internal => "Internal" | Unavailable => "Unavailable"
  | DataLoss => "DataLoss" | Unauthenticated => "Unauthenticated"
  end.

End codes.

(** ** google.golang.org/grpc/status, and Go's [error] values

  A non-nil Go [error] either carries a gRPC status (it implements
  [GRPCStatus()]) or it is any other error, of which the node server only
  ever reads the message. A nil error is [None] of [option error]. *)
Module status.

Record Status : Type := mkStatus { Code : codes.Code; Message : string }.

Inductive error : Type :=
| StatusError (s : Status)
| OtherError (msg : string).

#[global] Instance Status_eq_dec : EqDecision Status.
Proof. solve_decision. Defined.
#[global] Instance error_eq_dec : EqDecision error.
Proof. solve_decision. Defined.

(** [err.Error()] *)
Definition Error (err : error) : string :=
  match err with
  | StatusError s =>
      "rpc error: code = " +:+ codes.Code_String (Code s)
        +:+ " desc = " +:+ Message s
  | OtherError msg => msg
  end.

(** [status.Error(c, msg)], for the codes other than [OK] that the node
    server passes. *)
Definition Error_ (c : codes.Code) (msg : string) : error :=
  StatusError (mkStatus c msg).

(** [status.FromError(err)] on a non-nil error. *)
Definition FromError (err : error) : Status * bool :=
  match err with
  | StatusError s => (s, true)
  | OtherError msg => (mkStatus codes.Unknown msg, false)
  end.

End status.

(** ** github.com/container-storage-interface/spec/lib/go/csi

  Messages are records; a nil pointer is [None]; a [oneof] is an inductive
  type with one constructor for each alternative. The getters are the
  generated nil-safe ones. *)
Module csi.

Inductive NodeServiceCapability_RPC_Type : Type :=
| NodeServiceCapability_RPC_UNKNOWN
| NodeServiceCapability_RPC_STAGE_UNSTAGE_VOLUME
| NodeServiceCapability_RPC_GET_VOLUME_STATS
| NodeServiceCapability_RPC_EXPAND_VOLUME
| NodeServiceCapability_RPC_VOLUME_CONDITION.

#[global] Instance RPC_Type_eq_dec : EqDecision NodeServiceCapability_RPC_Type.
Proof. solve_decision. Defined.

Record NodeServiceCapability_RPC : Type :=
  { RPC_Type : NodeServiceCapability_RPC_Type }.

(** the [oneof type], which has the single alternative [rpc] *)
Inductive isNodeServiceCapability_Type : Type :=
| NodeServiceCapability_Rpc (Rpc : option NodeServiceCapability_RPC).

Record NodeServiceCapability : Type :=
  { Type_ : option isNodeServiceCapability_Type }.

Record NodeGetCapabilitiesRequest : Type := mkNodeGetCapabilitiesRequest {}.

Record NodeGetCapabilitiesResponse : Type :=
  { Capabilities : list NodeServiceCapability }.

Record Topology : Type := { Segments : gmap string string }.

Record NodeGetInfoRequest : Type := mkNodeGetInfoRequest {}.

Record NodeGetInfoResponse : Type :=
  { NodeId : string;
    MaxVolumesPerNode : Z;
    AccessibleTopology : option Topology }.

Record VolumeCapability_BlockVolume : Type :=
  mkVolumeCapability_BlockVolume {}.

Record VolumeCapability_MountVolume : Type :=
  { FsType : string; MountFlags : list string }.

(** the [oneof access_type]: a capability holds the [block] alternative or
    the [mount] alternative, never both *)
Inductive isVolumeCapability_AccessType : Type :=
| VolumeCapability_Block (b : option VolumeCapability_BlockVolume)
| VolumeCapability_Mount (m : option VolumeCapability_MountVolume).

Record VolumeCapability : Type :=
  { AccessType : option isVolumeCapability_AccessType }.



Record NodePublishVolumeRequest : Type :=
  { VolumeId : string;
    StagingTargetPath : string;
    TargetPath : string;
    VolumeCapability_ : option VolumeCapability;
    Readonly : bool;
    VolumeContext : gmap string string }.

Record NodePublishVolumeResponse : Type := mkNodePublishVolumeResponse {}.

Definition GetVolumeId (req : NodePublishVolumeRequest) := VolumeId req.
Definition GetReadonly (req : NodePublishVolumeRequest) := Readonly req.
Definition GetTargetPath (req : NodePublishVolumeRequest) := TargetPath req.
Definition GetStagingTargetPath (req : NodePublishVolumeRequest) :=
  StagingTargetPath req.
Definition GetVolumeContext (req : NodePublishVolumeRequest) :=
  VolumeContext req.
Definition GetVolumeCapability (req : NodePublishVolumeRequest) :=
  VolumeCapability_ req.

(** [c.GetBlock()] and [c.GetMount()] on a capability that is not nil:
    the value of the alternative if the oneof holds that alternative. *)
Definition Block (c : VolumeCapability)
  : option VolumeCapability_BlockVolume :=
  match AccessType c with
  | Some (VolumeCapability_Block b) => b
  | _ => None
  end.

Definition Mount (c : VolumeCapability)
  : option VolumeCapability_MountVolume :=
  match AccessType c with
  | Some (VolumeCapability_Mount m) => m
  | _ => None
  end.

Definition GetBlock (vCap : option VolumeCapability)
  : option VolumeCapability_BlockVolume :=
  match vCap with Some c => Block c | None => None end.

Definition GetMount (vCap : option VolumeCapability)
  : option VolumeCapability_MountVolume :=
  match vCap with Some c => Mount c | None => None end.

Definition GetFsType (m : option VolumeCapability_MountVolume) : string :=
  match m with Some m => FsType m | None => "" end.

Definition GetMountFlags (m : option VolumeCapability_MountVolume)
  : list string :=
  match m with Some m => MountFlags m | None => [] end.

End csi.

(** ** github.com/minio/jbod-csi-driver/pkg/topology

    [node.go] uses five segment keys of package [topology] and none of
    their values; the keys are a parameter of [NodeGetInfo] below. *)
Module topology.

Record Keys : Type :=
  { TopologyDriverIdentity : string;
    TopologyDriverNode : string;
    TopologyDriverRack : string;
    TopologyDriverZone : string;
    TopologyDriverRegion : string }.

(** Go rejects a map literal with two equal constant keys, so the
    program compiles only with pairwise distinct keys. *)
Definition distinct (k : Keys) : Prop :=
  NoDup [TopologyDriverIdentity k; TopologyDriverNode k;
         TopologyDriverRack k; TopologyDriverZone k;
         TopologyDriverRegion k].

(** Modelled from the spec: values for the constants of package
    [topology], whose declarations [node.go] only imports. Section 4.4
    names the five segments (driver identity, node, rack, zone, region) and
    not their strings; these labels stand for them in the examples. *)
Definition sampleKeys : Keys :=
  {| TopologyDriverIdentity := "direct.csi.min.io/identity";
     TopologyDriverNode := "direct.csi.min.io/node";
     TopologyDriverRack := "direct.csi.min.io/rack";
     TopologyDriverZone := "direct.csi.min.io/zone";
     TopologyDriverRegion := "direct.csi.min.io/region" |}.

End topology.

(** ** github.com/minio/jbod-csi-driver/pkg/volume

    [node.go] imports package [volume] and only calls it. Its data is
    modelled from section 3 of the specification; the methods [Bind] and
    [Mount] of a volume and the comparison [Matches] are parameters of
    [NodePublishVolume], and the instances given here follow sections 4.1,
    4.2, 4.3 and 9. *)
Module volume.

Inductive AccessMode : Type := BlockAccess | MountAccess.

#[global] Instance AccessMode_eq_dec : EqDecision AccessMode.
Proof. solve_decision. Defined.

(** Modelled from the spec: the access parameters of a grant, "access
    mode, read-only flag, filesystem type, mount flags, volume context". *)
Record VolumeAccess : Type :=
  { AccessType : AccessMode;
    AccessReadonly : bool;
    AccessFsType : string;
    AccessMountFlags : list string;
    AccessVolumeContext : gmap string string }.

(** Modelled from the spec: the Volume entity of section 3. [StagingPath]
    is the one field that [node.go] reads directly. *)
Record Volume : Type :=
  { ID : string;
    StagingPath : string;
    BlockAccessible : bool;
    MountAccessible : bool;
    TargetGrants : gmap string VolumeAccess }.

(** Modelled from the spec: the process-wide state behind package
    [volume], which the RPCs run against: the Volume Registry (section 4.1)
    and the state of the host that the executor acts on (section 4.2). *)
Record World {Host : Type} : Type :=
  mkWorld { registry : gmap string Volume; host : Host }.
Arguments World : clear implicits.
Arguments mkWorld {Host} _ _.

(** Modelled from the spec: [volume.GetVolume], the Registry's
    "Lookup(volumeID) -> Volume | NotFound"; [None] is a non-nil error. *)
Definition GetVolume {Host} (w : World Host) (vID : string) : option Volume :=
  registry w !! vID.

(** Modelled from the spec: [vol.ContainsTargetPaths], the grant recorded
    for a target path in the volume's TargetGrants, if any. *)
Definition ContainsTargetPaths (vol : Volume) (targetPath : string)
  : option VolumeAccess :=
  TargetGrants vol !! targetPath.

(** Modelled from the spec: [vol.IsBlockAccessible], the block flag of the
    volume's AccessCapabilities. *)
Definition IsBlockAccessible (vol : Volume) : bool := BlockAccessible vol.

(** Modelled from the spec: [vol.IsMountAccessible], the mount flag of the
    volume's AccessCapabilities. *)
Definition IsMountAccessible (vol : Volume) : bool := MountAccessible vol.

(** Modelled from the spec: the access mode that [Matches] takes a request
    to ask for. The specification leaves open how it is read off a request;
    here it is read through the accessors in the order in which
    [NodePublishVolume] consults them, block first. *)
Definition requestedMode (vCap : option csi.VolumeCapability)
  : option AccessMode :=
  if notNil (csi.GetBlock vCap) then Some BlockAccess
  else if notNil (csi.GetMount vCap) then Some MountAccess
  else None.

(** Modelled from the spec: [access.Matches(req)], which section 9 assumes
    to be equality over access mode, read-only flag, filesystem type, mount
    flags and volume context. *)
Definition Matches (access : VolumeAccess) (req : csi.NodePublishVolumeRequest)
  : bool :=
  let vCap := csi.GetVolumeCapability req in
  bool_decide (requestedMode vCap = Some (AccessType access))
  && bool_decide (AccessReadonly access = csi.GetReadonly req)
  && bool_decide (AccessFsType access = csi.GetFsType (csi.GetMount vCap))
  && bool_decide
       (AccessMountFlags access = csi.GetMountFlags (csi.GetMount vCap))
  && bool_decide (AccessVolumeContext access = csi.GetVolumeContext req).

(** Modelled from the spec: what the executor has mounted at a path of the
    host. *)
Record MountPoint : Type :=
  { MountSource : string;
    MountFsType : string;
    MountOptions : list string;
    MountReadonly : bool }.

(** Modelled from the spec: the host as the executor sees it, which is
    the mount table and, for the paths on which the operating system
    refuses to mount, the failure it reports. *)
Record HostFS : Type :=
  { mounts : gmap string MountPoint;
    faults : gmap string status.error }.

(** Modelled from the spec: the Executor's [Bind] of section 4.2. It binds
    the staged volume at the target path, succeeds without change when the
    path is bound that way already, and returns the operating system's
    failure as it is. The Executor is a leaf next to the Registry and
    leaves the Registry alone. *)
Definition ExecutorBind (vol : Volume) (targetPath : string) (readOnly : bool)
    (vCtx : gmap string string) (w : World HostFS)
  : option status.error * World HostFS :=
  match faults (host w) !! targetPath with
  | Some err => (Some err, w)
  | None =>
      (None,
       mkWorld (registry w)
         {| mounts :=
              <[targetPath :=
                  {| MountSource := StagingPath vol; MountFsType := "";
                     MountOptions := []; MountReadonly := readOnly |}]>
                (mounts (host w));
            faults := faults (host w) |})
  end.

(** Modelled from the spec: the Executor's [Mount] of section 4.2, as
    [ExecutorBind] but with a filesystem type and mount flags. *)
Definition ExecutorMount (vol : Volume) (targetPath fs : string)
    (flags : list string) (readOnly : bool) (vCtx : gmap string string)
    (w : World HostFS)
  : option status.error * World HostFS :=
  match faults (host w) !! targetPath with
  | Some err => (Some err, w)
  | None =>
      (None,
       mkWorld (registry w)
         {| mounts :=
              <[targetPath :=
                  {| MountSource := StagingPath vol; MountFsType := fs;
                     MountOptions := flags; MountReadonly := readOnly |}]>
                (mounts (host w));
            faults := faults (host w) |})
  end.

(** Modelled from the spec: the Registry's [AddGrant] of section 4.1 where
    it answers OK: the grant is entered for the target path in the
    TargetGrants of the volume, which the Registry keeps under the volume's
    identity. Its other answer, Conflict, is for a path that has a grant
    already; [NodePublishVolume] turns such a path away before it gets to
    [vol.Bind] or [vol.Mount]. *)
Definition AddGrant (vol : Volume) (targetPath : string)
    (access : VolumeAccess) (reg : gmap string Volume) : gmap string Volume :=
  <[ID vol :=
      {| ID := ID vol; StagingPath := StagingPath vol;
         BlockAccessible := BlockAccessible vol;
         MountAccessible := MountAccessible vol;
         TargetGrants := <[targetPath := access]> (TargetGrants vol) |}]> reg.

(** Modelled from the spec: [vol.Bind], the method of the volume that
    [NodePublishVolume] calls for block access. It is the one call on the
    way to success, so it stands for steps 6 and 8 of section 4.3: the
    Executor's [Bind] and, when that succeeded and only then (section 5),
    the grant recorded in the Registry with the parameters of the call. *)
Definition Bind (vol : Volume) (targetPath : string) (readOnly : bool)
    (vCtx : gmap string string) (w : World HostFS)
  : option status.error * World HostFS :=
  match ExecutorBind vol targetPath readOnly vCtx w with
  | (Some err, w') => (Some err, w')
  | (None, w') =>
      (None,
       mkWorld
         (AddGrant vol targetPath
            {| AccessType := BlockAccess; AccessReadonly := readOnly;
               AccessFsType := ""; AccessMountFlags := [];
               AccessVolumeContext := vCtx |}
            (registry w'))
         (host w'))
  end.

(** Modelled from the spec: [vol.Mount], the method of the volume that
    [NodePublishVolume] calls for mount access: steps 7 and 8 of section
    4.3, as [Bind]. *)
Definition Mount (vol : Volume) (targetPath fs : string) (flags : list string)
    (readOnly : bool) (vCtx : gmap string string) (w : World HostFS)
  : option status.error * World HostFS :=
  match ExecutorMount vol targetPath fs flags readOnly vCtx w with
  | (Some err, w') => (Some err, w')
  | (None, w') =>
      (None,
       mkWorld
         (AddGrant vol targetPath
            {| AccessType := MountAccess; AccessReadonly := readOnly;
               AccessFsType := fs; AccessMountFlags := flags;
               AccessVolumeContext := vCtx |}
            (registry w'))
         (host w'))
  end.


End volume.

(** ** pkg/node/node.go *)
Module node.
Import status.

Definition MaxVolumes : Z := 10000.

Record NodeServer : Type :=
  { NodeID : string;
    Identity : string;
    Rack : string;
    Zone : string;
    Region : string }.

(** What an RPC returns: the response, or a non-nil error. *)
Inductive result (A : Type) : Type :=
| Ok (resp : A)
| Err (err : error).
Arguments Ok {A} _.
Arguments Err {A} _.

Definition NewNodeServer (identity nodeID rack zone region : string)
  : result NodeServer :=
  Ok {| NodeID := nodeID;
        Identity := identity;
        Rack := rack;
        Zone := zone;
        Region := region |}.

Definition NodeGetInfo (k : topology.Keys) (n : NodeServer)
    (req : csi.NodeGetInfoRequest) : result csi.NodeGetInfoResponse :=
  let topology_ :=
    {| csi.Segments :=
         <[topology.TopologyDriverRegion k := Region n]>
         (<[topology.TopologyDriverZone k := Zone n]>
         (<[topology.TopologyDriverRack k := Rack n]>
         (<[topology.TopologyDriverNode k := NodeID n]>
         (<[topology.TopologyDriverIdentity k := Identity n]> ∅)))) |} in
  Ok {| csi.NodeId := NodeID n;
        csi.MaxVolumesPerNode := MaxVolumes;
        csi.AccessibleTopology := Some topology_ |}.

(** The closure [nodeCap] of [NodeGetCapabilities]; its log line is not
    modelled. *)
Definition nodeCap (cap : csi.NodeServiceCapability_RPC_Type)
  : csi.NodeServiceCapability :=
  {| csi.Type_ :=
       Some (csi.NodeServiceCapability_Rpc
               (Some {| csi.RPC_Type := cap |})) |}.

Definition NodeGetCapabilities (n : NodeServer)
    (req : csi.NodeGetCapabilitiesRequest)
  : result csi.NodeGetCapabilitiesResponse :=
  Ok {| csi.Capabilities :=
          [ nodeCap csi.NodeServiceCapability_RPC_VOLUME_CONDITION;
            nodeCap csi.NodeServiceCapability_RPC_GET_VOLUME_STATS;
            nodeCap csi.NodeServiceCapability_RPC_STAGE_UNSTAGE_VOLUME ] |}.

(** The RPC type a capability advertises, if it advertises one. *)
Definition rpcType (c : csi.NodeServiceCapability)
  : option csi.NodeServiceCapability_RPC_Type :=
  match csi.Type_ c with
  | Some (csi.NodeServiceCapability_Rpc (Some rpc)) => Some (csi.RPC_Type rpc)
  | _ => None
  end.

(** *** Calls to package [volume]

    [NodePublishVolume] runs against the [World] and talks to the Registry
    and to the executor. Each such call is recorded, in order, so that what
    a request did and did not do can be stated. The [ctx] argument and the
    [glog] lines have no part in the result and are left out. *)
Inductive Call : Type :=
| GetVolumeCall (vID : string)
| ContainsTargetPathsCall (vID targetPath : string)
| BindCall (vID targetPath : string) (ro : bool) (vCtx : gmap string string)
| MountCall (vID targetPath fs : string) (flags : list string) (ro : bool)
    (vCtx : gmap string string).

Definition isRegistryCall (c : Call) : bool :=
  match c with
  | GetVolumeCall _ | ContainsTargetPathsCall _ _ => true
  | _ => false
  end.

Definition isExecutorCall (c : Call) : bool :=
  match c with
  | BindCall _ _ _ _ | MountCall _ _ _ _ _ _ => true
  | _ => false
  end.

(** A computation over the world that may stop with an error: the result,
    the world it leaves and the calls it made. *)
Definition M (Host A : Type) : Type :=
  volume.World Host → result A * volume.World Host * list Call.

Definition ret {Host A} (a : A) : M Host A := λ w, (Ok a, w, []).

(** [return nil, err] *)
Definition fail {Host A} (err : error) : M Host A := λ w, (Err err, w, []).

Definition bind {Host A B} (m : M Host A) (f : A → M Host B) : M Host B :=
  λ w,
    match m w with
    | (Ok a, w', t) => let '(r, w'', t') := f a w' in (r, w'', (t ++ t')%list)
    | (Err err, w', t) => (Err err, w', t)
    end.

Notation "'let!' x ':=' m 'in' k" := (bind m (λ x, k))
  (at level 10, x name, m at level 100, k at level 200).
Notation "'seq!' m 'in' k" := (bind m (λ _, k))
  (at level 10, m at level 100, k at level 200).

Section Publish.

Context {Host : Type}.

(** [access.Matches(req)] *)
Variable Matches : volume.VolumeAccess → csi.NodePublishVolumeRequest → bool.

(** The error [volume.GetVolume] returns for an ID it does not know. *)
Variable GetVolumeError : string → error.

(** [vol.Bind(targetPath, ro, vCtx)] and
    [vol.Mount(targetPath, fs, flags, ro, vCtx)]: their error, nil when
    [None], and the world they leave. *)
Variable Bind :
  volume.Volume → string → bool → gmap string string →
  volume.World Host → option error * volume.World Host.
Variable Mount :
  volume.Volume → string → string → list string → bool → gmap string string →
  volume.World Host → option error * volume.World Host.

Definition callGetVolume (vID : string) : M Host (volume.Volume + error) :=
  λ w,
    (Ok match volume.GetVolume w vID with
        | Some vol => inl vol
        | None => inr (GetVolumeError vID)
        end,
     w, [GetVolumeCall vID]).

Definition callContainsTargetPaths (vID : string) (vol : volume.Volume)
    (targetPath : string) : M Host (option volume.VolumeAccess) :=
  λ w,
    (Ok (volume.ContainsTargetPaths vol targetPath), w,
     [ContainsTargetPathsCall vID targetPath]).

Definition callBind (vID : string) (vol : volume.Volume) (targetPath : string)
    (ro : bool) (vCtx : gmap string string) : M Host (option error) :=
  λ w,
    let '(err, w') := Bind vol targetPath ro vCtx w in
    (Ok err, w', [BindCall vID targetPath ro vCtx]).

Definition callMount (vID : string) (vol : volume.Volume)
    (targetPath fs : string) (flags : list string) (ro : bool)
    (vCtx : gmap string string) : M Host (option error) :=
  λ w,
    let '(err, w') := Mount vol targetPath fs flags ro vCtx w in
    (Ok err, w', [MountCall vID targetPath fs flags ro vCtx]).

Definition NodePublishVolume (n : NodeServer)
    (req : csi.NodePublishVolumeRequest)
  : M Host csi.NodePublishVolumeResponse :=
  let vID := csi.GetVolumeId req in
  let ro := csi.GetReadonly req in
  let targetPath := csi.GetTargetPath req in
  let stagingPath := csi.GetStagingTargetPath req in
  let vCtx := csi.GetVolumeContext req in
  let vCap := csi.GetVolumeCapability req in
  if bool_decide (vID = "") then
    fail (Error_ codes.InvalidArgument "volume ID missing in request")
  else
  let! found := callGetVolume vID in
  match found with
  | inr err => fail (Error_ codes.NotFound (Error err))
  | inl vol =>
  if bool_decide (volume.StagingPath vol ≠ stagingPath) then
    fail (Error_ codes.FailedPrecondition
            "volume staging target path is empty or incorrect")
  else
  let! grant := callContainsTargetPaths vID vol targetPath in
  match grant with
  | Some access =>
      if Matches access req then ret csi.mkNodePublishVolumeResponse
      else
        fail (Error_ codes.AlreadyExists
                "cannot reprovision volume at same path but different parameters")
  | None =>
  if isNil vCap then
    fail (Error_ codes.InvalidArgument "volume capability missing in request")
  else
  if notNil (csi.GetBlock vCap) && notNil (csi.GetMount vCap) then
    fail (Error_ codes.InvalidArgument
            "volume capability request contains both mount and block access")
  else
  if isNil (csi.GetBlock vCap) && isNil (csi.GetMount vCap) then
    fail (Error_ codes.InvalidArgument
            "volume capability request contains neither mount and block access")
  else
  seq!
  (if notNil (csi.GetBlock vCap) then
     if negb (volume.IsBlockAccessible vol) then
       fail (Error_ codes.InvalidArgument
               "volume does not support block access")
     else
     let! err := callBind vID vol targetPath ro vCtx in
     match err with
     | Some err =>
         if (FromError err).2 then fail err
         else fail (Error_ codes.Internal (Error err))
     | None => ret tt
     end
   else ret tt) in
  seq!
  (match csi.GetMount vCap with
   | Some vMount =>
       if negb (volume.IsMountAccessible vol) then
         fail (Error_ codes.InvalidArgument
                 "volume does not support mount access")
       else
       let fs := csi.GetFsType (Some vMount) in
       let flags := csi.GetMountFlags (Some vMount) in
       let! err := callMount vID vol targetPath fs flags ro vCtx in
       match err with
       | Some err =>
           if (FromError err).2 then fail err
           else fail (Error_ codes.Internal (Error err))
       | None => ret tt
       end
   | None => ret tt
   end) in
  ret csi.mkNodePublishVolumeResponse
  end
  end.

(** *** Vocabulary of the statements about [NodePublishVolume] *)

(** The request passes the checks before the capability checks: its volume
    ID is not empty, the Registry knows the volume, the volume is staged
    where the request says, and the target path has no grant yet. *)
Definition reachesCapabilityChecks (req : csi.NodePublishVolumeRequest)
    (w : volume.World Host) (vol : volume.Volume) : Prop :=
  csi.GetVolumeId req ≠ ""
  ∧ volume.GetVolume w (csi.GetVolumeId req) = Some vol
  ∧ volume.StagingPath vol = csi.GetStagingTargetPath req
  ∧ volume.ContainsTargetPaths vol (csi.GetTargetPath req) = None.

(** The request asks for exactly one access type that the volume supports,
    and the executor call made for it in world [w] returns [out] (the
    error, or [None] for success) and leaves world [w']. *)
Definition executorReturns (req : csi.NodePublishVolumeRequest)
    (vol : volume.Volume) (w : volume.World Host) (out : option error)
    (w' : volume.World Host) : Prop :=
  let vCap := csi.GetVolumeCapability req in
  match csi.GetBlock vCap, csi.GetMount vCap with
  | Some _, None =>
      volume.IsBlockAccessible vol = true
      ∧ Bind vol (csi.GetTargetPath req) (csi.GetReadonly req)
          (csi.GetVolumeContext req) w = (out, w')
  | None, Some vMount =>
      volume.IsMountAccessible vol = true
      ∧ Mount vol (csi.GetTargetPath req) (csi.FsType vMount)
          (csi.MountFlags vMount) (csi.GetReadonly req)
          (csi.GetVolumeContext req) w = (out, w')
  | _, _ => False
  end.

(** The executor call that a request with exactly one access type makes. *)
Definition executorCall (req : csi.NodePublishVolumeRequest) : list Call :=
  let vCap := csi.GetVolumeCapability req in
  match csi.GetBlock vCap, csi.GetMount vCap with
  | Some _, _ =>
      [BindCall (csi.GetVolumeId req) (csi.GetTargetPath req)
         (csi.GetReadonly req) (csi.GetVolumeContext req)]
  | None, Some vMount =>
      [MountCall (csi.GetVolumeId req) (csi.GetTargetPath req)
         (csi.FsType vMount) (csi.MountFlags vMount) (csi.GetReadonly req)
         (csi.GetVolumeContext req)]
  | None, None => []
  end.

(** The two Registry calls every request makes that gets past the staging
    check. *)
Definition registryCalls (req : csi.NodePublishVolumeRequest) : list Call :=
  [GetVolumeCall (csi.GetVolumeId req);
   ContainsTargetPathsCall (csi.GetVolumeId req) (csi.GetTargetPath req)].

End Publish.

(** What the caller gets for an error of the executor. *)
Definition translated (err : error) : error :=
  match err with
  | StatusError _ => err
  | OtherError msg => StatusError (mkStatus codes.Internal msg)
  end.

(** The grant that the Registry holds for a volume and target path. *)
Definition grantAt {Host} (w : volume.World Host) (vID targetPath : string)
  : option volume.VolumeAccess :=
  volume.GetVolume w vID ≫= λ vol, volume.ContainsTargetPaths vol targetPath.


End node.

(** ** A node with three volumes

    Concrete worlds and requests on which the statements below are
    exercised, run with [Bind], [Mount] and [Matches] of module
    [volume]. *)
Module scenario.
Import status node.

Definition server : NodeServer :=
  {| NodeID := "node-1"; Identity := "direct.csi.min.io";
     Rack := "rack-7"; Zone := "zone-b"; Region := "eu-west" |}.

(** Modelled from the spec: the error of [volume.GetVolume] for an unknown
    ID, the Registry's NotFound condition. *)
Definition GetVolumeError (vID : string) : error :=
  OtherError ("volume " +:+ vID +:+ " not found").

Definition stagedVol : volume.Volume :=
  {| volume.ID := "vol-1";
     volume.StagingPath := "/var/lib/kubelet/staging/vol-1";
     volume.BlockAccessible := true; volume.MountAccessible := true;
     volume.TargetGrants := ∅ |}.

Definition unstagedVol : volume.Volume :=
  {| volume.ID := "vol-2"; volume.StagingPath := "";
     volume.BlockAccessible := true; volume.MountAccessible := true;
     volume.TargetGrants := ∅ |}.

Definition blockGrant : volume.VolumeAccess :=
  {| volume.AccessType := volume.BlockAccess;
     volume.AccessReadonly := false; volume.AccessFsType := "";
     volume.AccessMountFlags := []; volume.AccessVolumeContext := ∅ |}.

Definition publishedVol : volume.Volume :=
  {| volume.ID := "vol-3";
     volume.StagingPath := "/var/lib/kubelet/staging/vol-3";
     volume.BlockAccessible := true; volume.MountAccessible := true;
     volume.TargetGrants := {[ "/pods/a/vol" := blockGrant ]} |}.

Definition registry0 : gmap string volume.Volume :=
  <["vol-3" := publishedVol]>
    (<["vol-2" := unstagedVol]> (<["vol-1" := stagedVol]> ∅)).

Definition world0 : volume.World volume.HostFS :=
  volume.mkWorld registry0 {| volume.mounts := ∅; volume.faults := ∅ |}.

(** The same node when the operating system refuses two target paths, one
    with a plain error and one with an error that carries a status. *)
Definition faultyWorld : volume.World volume.HostFS :=
  volume.mkWorld registry0
    {| volume.mounts := ∅;
       volume.faults :=
         {[ "/pods/a/vol" := OtherError "device or resource busy";
            "/pods/b/vol" :=
              Error_ codes.Unavailable "mount helper not running" ]} |}.

Definition blockCap : csi.VolumeCapability :=
  {| csi.AccessType :=
       Some (csi.VolumeCapability_Block
               (Some csi.mkVolumeCapability_BlockVolume)) |}.

Definition mountCap : csi.VolumeCapability :=
  {| csi.AccessType :=
       Some (csi.VolumeCapability_Mount
               (Some {| csi.FsType := "xfs";
                        csi.MountFlags := ["noatime"] |})) |}.




Definition request (vID stagingPath targetPath : string)
    (vCap : option csi.VolumeCapability) (ro : bool)
  : csi.NodePublishVolumeRequest :=
  {| csi.VolumeId := vID; csi.StagingTargetPath := stagingPath;
     csi.TargetPath := targetPath; csi.VolumeCapability_ := vCap;
     csi.Readonly := ro; csi.VolumeContext := ∅ |}.

Definition blockReq : csi.NodePublishVolumeRequest :=
  request "vol-1" "/var/lib/kubelet/staging/vol-1" "/pods/a/vol"
    (Some blockCap) false.

Definition mountReq : csi.NodePublishVolumeRequest :=
  request "vol-1" "/var/lib/kubelet/staging/vol-1" "/pods/b/vol"
    (Some mountCap) false.

Definition unstagedReq : csi.NodePublishVolumeRequest :=
  request "vol-2" "" "/pods/c/vol" (Some blockCap) false.

Definition repeatReq : csi.NodePublishVolumeRequest :=
  request "vol-3" "/var/lib/kubelet/staging/vol-3" "/pods/a/vol"
    (Some blockCap) false.

Definition conflictReq : csi.NodePublishVolumeRequest :=
  request "vol-3" "/var/lib/kubelet/staging/vol-3" "/pods/a/vol"
    (Some blockCap) true.




(** [world0] once the volume of [blockReq] is bound at its target path and
    the grant is recorded. *)
Definition boundWorld : volume.World volume.HostFS :=
  volume.mkWorld
    (<["vol-1" :=
         {| volume.ID := "vol-1";
            volume.StagingPath := "/var/lib/kubelet/staging/vol-1";
            volume.BlockAccessible := true; volume.MountAccessible := true;
            volume.TargetGrants := {[ "/pods/a/vol" := blockGrant ]} |}]>
       registry0)
    {| volume.mounts :=
         {[ "/pods/a/vol" :=
              {| volume.MountSource := "/var/lib/kubelet/staging/vol-1";
                 volume.MountFsType := ""; volume.MountOptions := [];
                 volume.MountReadonly := false |} ]};
       volume.faults := ∅ |}.

Definition publish (req : csi.NodePublishVolumeRequest)
  : M volume.HostFS csi.NodePublishVolumeResponse :=
  NodePublishVolume volume.Matches GetVolumeError volume.Bind volume.Mount
    server req.

End scenario.

(** ** The paths through [NodePublishVolume]

    Every way in which [NodePublishVolume] can end, in the order of the
    source: the condition under which the path is taken, what is returned,
    the world that is left and the calls made on the way. The path of the
    check for both access types is listed as the source has it; no
    capability takes it, since the oneof holds one alternative. *)
Module paths.
Import status node.

Section Paths.

Context {Host : Type}.
Variable Matches : volume.VolumeAccess → csi.NodePublishVolumeRequest → bool.
Variable GetVolumeError : string → error.
Variable Bind :
  volume.Volume → string → bool → gmap string string →
  volume.World Host → option error * volume.World Host.
Variable Mount :
  volume.Volume → string → string → list string → bool → gmap string string →
  volume.World Host → option error * volume.World Host.

Inductive PublishPath (req : csi.NodePublishVolumeRequest)
    (w : volume.World Host)
  : result csi.NodePublishVolumeResponse → volume.World Host → list Call
    → Prop :=
| EmptyID :
    csi.GetVolumeId req = "" →
    PublishPath req w
      (Err (Error_ codes.InvalidArgument "volume ID missing in request")) w []
| UnknownVolume :
    csi.GetVolumeId req ≠ "" →
    volume.GetVolume w (csi.GetVolumeId req) = None →
    PublishPath req w
      (Err (Error_ codes.NotFound
              (Error (GetVolumeError (csi.GetVolumeId req)))))
      w [GetVolumeCall (csi.GetVolumeId req)]
| StagingMismatch vol :
    csi.GetVolumeId req ≠ "" →
    volume.GetVolume w (csi.GetVolumeId req) = Some vol →
    volume.StagingPath vol ≠ csi.GetStagingTargetPath req →
    PublishPath req w
      (Err (Error_ codes.FailedPrecondition
              "volume staging target path is empty or incorrect"))
      w [GetVolumeCall (csi.GetVolumeId req)]
| GrantMatches vol access :
    csi.GetVolumeId req ≠ "" →
    volume.GetVolume w (csi.GetVolumeId req) = Some vol →
    volume.StagingPath vol = csi.GetStagingTargetPath req →
    volume.ContainsTargetPaths vol (csi.GetTargetPath req) = Some access →
    Matches access req = true →
    PublishPath req w (Ok csi.mkNodePublishVolumeResponse) w
      (registryCalls req)
| GrantDiffers vol access :
    csi.GetVolumeId req ≠ "" →
    volume.GetVolume w (csi.GetVolumeId req) = Some vol →
    volume.StagingPath vol = csi.GetStagingTargetPath req →
    volume.ContainsTargetPaths vol (csi.GetTargetPath req) = Some access →
    Matches access req = false →
    PublishPath req w
      (Err (Error_ codes.AlreadyExists
              "cannot reprovision volume at same path but different parameters"))
      w (registryCalls req)
| CapabilityMissing vol :
    reachesCapabilityChecks req w vol →
    csi.GetVolumeCapability req = None →
    PublishPath req w
      (Err (Error_ codes.InvalidArgument
              "volume capability missing in request"))
      w (registryCalls req)
| CapabilityBoth vol b m :
    reachesCapabilityChecks req w vol →
    csi.GetBlock (csi.GetVolumeCapability req) = Some b →
    csi.GetMount (csi.GetVolumeCapability req) = Some m →
    PublishPath req w
      (Err (Error_ codes.InvalidArgument
              "volume capability request contains both mount and block access"))
      w (registryCalls req)
| CapabilityNeither vol c :
    reachesCapabilityChecks req w vol →
    csi.GetVolumeCapability req = Some c →
    csi.Block c = None → csi.Mount c = None →
    PublishPath req w
      (Err (Error_ codes.InvalidArgument
              "volume capability request contains neither mount and block access"))
      w (registryCalls req)
| BlockUnsupported vol b :
    reachesCapabilityChecks req w vol →
    csi.GetBlock (csi.GetVolumeCapability req) = Some b →
    csi.GetMount (csi.GetVolumeCapability req) = None →
    volume.IsBlockAccessible vol = false →
    PublishPath req w
      (Err (Error_ codes.InvalidArgument
              "volume does not support block access"))
      w (registryCalls req)
| MountUnsupported vol m :
    reachesCapabilityChecks req w vol →
    csi.GetBlock (csi.GetVolumeCapability req) = None →
    csi.GetMount (csi.GetVolumeCapability req) = Some m →
    volume.IsMountAccessible vol = false →
    PublishPath req w
      (Err (Error_ codes.InvalidArgument
              "volume does not support mount access"))
      w (registryCalls req)
| Executed vol out w' :
    reachesCapabilityChecks req w vol →
    executorReturns Bind Mount req vol w out w' →
    PublishPath req w
      (match out with
       | None => Ok csi.mkNodePublishVolumeResponse
       | Some err => Err (translated err)
       end)
      w' (registryCalls req ++ executorCall req)%list.

End Paths.

(** The codes of the errors that [NodePublishVolume] makes itself before
    it calls the executor. *)
Definition validationCodes : list codes.Code :=
  [codes.InvalidArgument; codes.NotFound; codes.FailedPrecondition;
   codes.AlreadyExists].

(** What is known of an executor call found among the calls of a request
    in world [w]: its arguments are those of the request, and the volume is
    known, staged as requested and supports the access type, which is the
    only one the request asks for. *)
Definition asRequested {Host} (req : csi.NodePublishVolumeRequest)
    (w : volume.World Host) (c : Call) : Prop :=
  match c with
  | BindCall vID targetPath ro vCtx =>
      vID = csi.GetVolumeId req ∧ targetPath = csi.GetTargetPath req
      ∧ ro = csi.GetReadonly req ∧ vCtx = csi.GetVolumeContext req
      ∧ csi.GetMount (csi.GetVolumeCapability req) = None
      ∧ ∃ vol,
          volume.GetVolume w (csi.GetVolumeId req) = Some vol
          ∧ volume.StagingPath vol = csi.GetStagingTargetPath req
          ∧ volume.IsBlockAccessible vol = true
  | MountCall vID targetPath fs flags ro vCtx =>
      vID = csi.GetVolumeId req ∧ targetPath = csi.GetTargetPath req
      ∧ ro = csi.GetReadonly req ∧ vCtx = csi.GetVolumeContext req
      ∧ csi.GetBlock (csi.GetVolumeCapability req) = None
      ∧ (∃ vMount,
           csi.GetMount (csi.GetVolumeCapability req) = Some vMount
           ∧ fs = csi.FsType vMount ∧ flags = csi.MountFlags vMount)
      ∧ ∃ vol,
          volume.GetVolume w (csi.GetVolumeId req) = Some vol
          ∧ volume.StagingPath vol = csi.GetStagingTargetPath req
          ∧ volume.IsMountAccessible vol = true
  | _ => True
  end.

End paths.

(** ** More volumes and requests *)
Module scenario2.
Import status node.

Definition blockOnlyVol : volume.Volume :=
  {| volume.ID := "vol-4";
     volume.StagingPath := "/var/lib/kubelet/staging/vol-4";
     volume.BlockAccessible := true; volume.MountAccessible := false;
     volume.TargetGrants := ∅ |}.

Definition mountOnlyVol : volume.Volume :=
  {| volume.ID := "vol-5";
     volume.StagingPath := "/var/lib/kubelet/staging/vol-5";
     volume.BlockAccessible := false; volume.MountAccessible := true;
     volume.TargetGrants := ∅ |}.

Definition world1 : volume.World volume.HostFS :=
  volume.mkWorld
    (<["vol-5" := mountOnlyVol]>
       (<["vol-4" := blockOnlyVol]> scenario.registry0))
    {| volume.mounts := ∅; volume.faults := ∅ |}.

Definition mountOnBlockOnlyReq : csi.NodePublishVolumeRequest :=
  scenario.request "vol-4" "/var/lib/kubelet/staging/vol-4" "/pods/d/vol"
    (Some scenario.mountCap) false.

Definition blockOnMountOnlyReq : csi.NodePublishVolumeRequest :=
  scenario.request "vol-5" "/var/lib/kubelet/staging/vol-5" "/pods/e/vol"
    (Some scenario.blockCap) true.

Definition noIdReq : csi.NodePublishVolumeRequest :=
  scenario.request "" "/var/lib/kubelet/staging/vol-1" "/pods/a/vol"
    (Some scenario.blockCap) false.

Definition unknownReq : csi.NodePublishVolumeRequest :=
  scenario.request "vol-9" "/var/lib/kubelet/staging/vol-9" "/pods/a/vol"
    (Some scenario.blockCap) false.

(** A lookup error that carries a status of its own. *)
Definition GetVolumeError (vID : string) : error :=
  Error_ codes.Internal ("registry unavailable for " +:+ vID).

Definition publish (req : csi.NodePublishVolumeRequest)
  : M volume.HostFS csi.NodePublishVolumeResponse :=
  NodePublishVolume volume.Matches GetVolumeError volume.Bind volume.Mount
    scenario.server req.

(** The node server run with the Executor alone for [vol.Bind] and
    [vol.Mount]. *)
Definition publishOnHost (req : csi.NodePublishVolumeRequest)
  : M volume.HostFS csi.NodePublishVolumeResponse :=
  NodePublishVolume volume.Matches scenario.GetVolumeError
    volume.ExecutorBind volume.ExecutorMount scenario.server req.

End scenario2.

(** * Properties *)

(** ** Node identity and capabilities *)
Module node_info.
Import status node.

Lemma segments_lookup (k : topology.Keys) (n : NodeServer) :
  topology.distinct k →
  ∀ resp topo,
    NodeGetInfo k n csi.mkNodeGetInfoRequest = Ok resp →
    csi.AccessibleTopology resp = Some topo →
    csi.Segments topo !! topology.TopologyDriverIdentity k = Some (Identity n)
    ∧ csi.Segments topo !! topology.TopologyDriverNode k = Some (NodeID n)
    ∧ csi.Segments topo !! topology.TopologyDriverRack k = Some (Rack n)
    ∧ csi.Segments topo !! topology.TopologyDriverZone k = Some (Zone n)
    ∧ csi.Segments topo !! topology.TopologyDriverRegion k = Some (Region n).
Proof.
  unfold topology.distinct. intros Hd resp topo [= <-] [= <-]. simpl.
  rewrite !NoDup_cons in Hd. rewrite !not_elem_of_cons in Hd.
  destruct Hd as ((?&?&?&?&_)&(?&?&?&_)&(?&?&_)&(?&_)&_).
  repeat split; by simplify_map_eq.
Qed.

(** C9. Any two [NodeGetInfo] calls on the node server built at startup
    return the same response, without error: the node ID and the segment
    values are those given to [NewNodeServer], [MaxVolumesPerNode] is the
    constant 10000, and the topology segments have exactly the five keys
    driver identity, node, rack, zone and region. *)
Theorem NodeGetInfo_stable (k : topology.Keys)
    (identity nodeID rack zone region : string) (n : NodeServer)
    (req1 req2 : csi.NodeGetInfoRequest) :
  topology.distinct k →
  NewNodeServer identity nodeID rack zone region = Ok n →
  NodeGetInfo k n req1 = NodeGetInfo k n req2
  ∧ ∃ resp topo,
      NodeGetInfo k n req1 = Ok resp
      ∧ csi.NodeId resp = nodeID
      ∧ csi.MaxVolumesPerNode resp = 10000%Z
      ∧ csi.AccessibleTopology resp = Some topo
      ∧ dom (csi.Segments topo)
        = {[ topology.TopologyDriverIdentity k; topology.TopologyDriverNode k;
             topology.TopologyDriverRack k; topology.TopologyDriverZone k;
             topology.TopologyDriverRegion k ]}
      ∧ csi.Segments topo !! topology.TopologyDriverIdentity k = Some identity
      ∧ csi.Segments topo !! topology.TopologyDriverNode k = Some nodeID
      ∧ csi.Segments topo !! topology.TopologyDriverRack k = Some rack
      ∧ csi.Segments topo !! topology.TopologyDriverZone k = Some zone
      ∧ csi.Segments topo !! topology.TopologyDriverRegion k = Some region.
Proof.
  intros Hd [= <-]. split; [reflexivity|].
  eexists _, _. split; [reflexivity|].
  do 3 (split; [reflexivity|]).
  split.
  - simpl. rewrite !dom_insert_L, dom_empty_L.
    apply set_eq. intros x. rewrite !elem_of_union, !elem_of_singleton.
    rewrite elem_of_empty. tauto.
  - destruct req1.
    exact (segments_lookup k
             {| NodeID := nodeID; Identity := identity; Rack := rack;
                Zone := zone; Region := region |} Hd _ _ eq_refl eq_refl).
Qed.

Lemma NodeGetInfo_stable_witness :
  topology.distinct topology.sampleKeys
  ∧ NodeGetInfo topology.sampleKeys scenario.server csi.mkNodeGetInfoRequest
    = NodeGetInfo topology.sampleKeys scenario.server csi.mkNodeGetInfoRequest.
Proof.
  assert (Hd : topology.distinct topology.sampleKeys).
  { unfold topology.distinct. apply (bool_decide_unpack _). vm_compute.
    exact I. }
  split; [exact Hd|].
  exact (proj1 (NodeGetInfo_stable topology.sampleKeys "direct.csi.min.io"
                  "node-1" "rack-7" "zone-b" "eu-west" scenario.server
                  csi.mkNodeGetInfoRequest csi.mkNodeGetInfoRequest
                  Hd eq_refl)).
Defined.

(** C10. [NodeGetCapabilities] returns, whatever the request and without
    error, the three capabilities volume condition, get volume stats and
    stage/unstage volume, and nothing else. *)
Theorem NodeGetCapabilities_static (n : NodeServer)
    (req : csi.NodeGetCapabilitiesRequest) :
  ∃ resp,
    NodeGetCapabilities n req = Ok resp
    ∧ (∀ n' req', NodeGetCapabilities n' req' = Ok resp)
    ∧ rpcType <$> csi.Capabilities resp
      = [ Some csi.NodeServiceCapability_RPC_VOLUME_CONDITION;
          Some csi.NodeServiceCapability_RPC_GET_VOLUME_STATS;
          Some csi.NodeServiceCapability_RPC_STAGE_UNSTAGE_VOLUME ]
    ∧ ∀ ty,
        Some ty ∈ (rpcType <$> csi.Capabilities resp)
        ↔ ty = csi.NodeServiceCapability_RPC_VOLUME_CONDITION
          ∨ ty = csi.NodeServiceCapability_RPC_GET_VOLUME_STATS
          ∨ ty = csi.NodeServiceCapability_RPC_STAGE_UNSTAGE_VOLUME.
Proof.
  eexists. split; [reflexivity|]. split; [reflexivity|].
  split; [reflexivity|].
  intros ty. simpl. rewrite !elem_of_cons, elem_of_nil. split.
  - intros [H|[H|[H|[]]]]; injection H as ->; auto.
  - intros [-> | [-> | ->]]; auto.
Qed.

End node_info.

(** ** Volume publication *)
Module publication.
Import status node.

Section Facts.

Context {Host : Type}.
Variable Matches : volume.VolumeAccess → csi.NodePublishVolumeRequest → bool.
Variable GetVolumeError : string → error.
Variable Bind :
  volume.Volume → string → bool → gmap string string →
  volume.World Host → option error * volume.World Host.
Variable Mount :
  volume.Volume → string → string → list string → bool → gmap string string →
  volume.World Host → option error * volume.World Host.
Variable n : NodeServer.

Local Abbreviation publish :=
  (NodePublishVolume Matches GetVolumeError Bind Mount n).

Implicit Types (req : csi.NodePublishVolumeRequest) (w : volume.World Host)
  (vol : volume.Volume) (access : volume.VolumeAccess).

(** *** The checks in order *)

Lemma publish_empty_id req w :
  csi.GetVolumeId req = "" →
  publish req w
  = (Err (Error_ codes.InvalidArgument "volume ID missing in request"), w, []).
Proof.
  intros Hid. unfold NodePublishVolume. rewrite Hid. reflexivity.
Qed.

Lemma publish_unknown_volume req w :
  csi.GetVolumeId req ≠ "" →
  volume.GetVolume w (csi.GetVolumeId req) = None →
  publish req w
  = (Err (Error_ codes.NotFound (Error (GetVolumeError (csi.GetVolumeId req)))),
     w, [GetVolumeCall (csi.GetVolumeId req)]).
Proof.
  intros Hid Hget. unfold NodePublishVolume.
  rewrite (bool_decide_eq_false_2 _ Hid).
  unfold bind, callGetVolume. rewrite Hget. reflexivity.
Qed.

Lemma publish_staging_mismatch req w vol :
  csi.GetVolumeId req ≠ "" →
  volume.GetVolume w (csi.GetVolumeId req) = Some vol →
  volume.StagingPath vol ≠ csi.GetStagingTargetPath req →
  publish req w
  = (Err (Error_ codes.FailedPrecondition
            "volume staging target path is empty or incorrect"),
     w, [GetVolumeCall (csi.GetVolumeId req)]).
Proof.
  intros Hid Hget Hst. unfold NodePublishVolume.
  rewrite (bool_decide_eq_false_2 _ Hid).
  unfold bind, callGetVolume. rewrite Hget.
  rewrite (bool_decide_eq_true_2 _ Hst). reflexivity.
Qed.

Lemma publish_existing_grant req w vol access :
  csi.GetVolumeId req ≠ "" →
  volume.GetVolume w (csi.GetVolumeId req) = Some vol →
  volume.StagingPath vol = csi.GetStagingTargetPath req →
  volume.ContainsTargetPaths vol (csi.GetTargetPath req) = Some access →
  publish req w
  = (if Matches access req then Ok csi.mkNodePublishVolumeResponse
     else Err (Error_ codes.AlreadyExists
                 "cannot reprovision volume at same path but different parameters"),
     w, registryCalls req).
Proof.
  intros Hid Hget Hst Hgrant. unfold NodePublishVolume.
  rewrite (bool_decide_eq_false_2 _ Hid).
  unfold bind, callGetVolume. rewrite Hget.
  rewrite (bool_decide_eq_false_2 (_ ≠ _)) by (intros Hne; exact (Hne Hst)).
  unfold callContainsTargetPaths. rewrite Hgrant.
  destruct (Matches access req); reflexivity.
Qed.

(** Runs [publish] up to the capability checks. *)
Ltac enter_capability_checks H :=
  let Hid := fresh "Hid" in
  let Hget := fresh "Hget" in
  let Hst := fresh "Hst" in
  let Hgrant := fresh "Hgrant" in
  destruct H as (Hid & Hget & Hst & Hgrant);
  unfold NodePublishVolume;
  rewrite (bool_decide_eq_false_2 _ Hid);
  unfold bind at 1, callGetVolume; rewrite Hget;
  rewrite (bool_decide_eq_false_2 (_ ≠ _)) by (intros Hne; exact (Hne Hst));
  unfold bind at 1, callContainsTargetPaths; rewrite Hgrant.

Lemma publish_capability_missing req w vol :
  reachesCapabilityChecks req w vol →
  csi.GetVolumeCapability req = None →
  publish req w
  = (Err (Error_ codes.InvalidArgument "volume capability missing in request"),
     w, registryCalls req).
Proof.
  intros H Hcap. enter_capability_checks H. rewrite Hcap. reflexivity.
Qed.

Lemma publish_capability_both req w vol :
  reachesCapabilityChecks req w vol →
  notNil (csi.GetBlock (csi.GetVolumeCapability req)) = true →
  notNil (csi.GetMount (csi.GetVolumeCapability req)) = true →
  publish req w
  = (Err (Error_ codes.InvalidArgument
            "volume capability request contains both mount and block access"),
     w, registryCalls req).
Proof.
  intros H Hb Hm. enter_capability_checks H.
  destruct (csi.GetVolumeCapability req) as [c|]; [|discriminate].
  simpl in *. rewrite Hb, Hm. reflexivity.
Qed.

Lemma publish_capability_neither req w vol c :
  reachesCapabilityChecks req w vol →
  csi.GetVolumeCapability req = Some c →
  csi.Block c = None → csi.Mount c = None →
  publish req w
  = (Err (Error_ codes.InvalidArgument
            "volume capability request contains neither mount and block access"),
     w, registryCalls req).
Proof.
  intros H Hcap Hb Hm. enter_capability_checks H. rewrite Hcap. simpl.
  rewrite Hb, Hm. reflexivity.
Qed.

Lemma publish_executor req w vol out w' :
  reachesCapabilityChecks req w vol →
  executorReturns Bind Mount req vol w out w' →
  publish req w
  = (match out with
     | None => Ok csi.mkNodePublishVolumeResponse
     | Some err => Err (translated err)
     end,
     w', (registryCalls req ++ executorCall req)%list).
Proof.
  intros H Hex. enter_capability_checks H.
  unfold executorReturns, executorCall in *.
  destruct (csi.GetVolumeCapability req) as [[[[[b|]|[m|]]|]]|]; simpl in Hex;
    try contradiction; destruct Hex as [Hacc Hrun]; simpl.
  - unfold volume.IsBlockAccessible in *. rewrite Hacc. simpl.
    unfold bind, callBind. rewrite Hrun.
    destruct out as [[s|msg]|]; reflexivity.
  - unfold volume.IsMountAccessible in *. rewrite Hacc. simpl.
    unfold bind, callMount, ret. rewrite Hrun.
    destruct out as [[s|msg]|]; reflexivity.
Qed.

Lemma publish_ok_id req w resp w' t :
  publish req w = (Ok resp, w', t) → csi.GetVolumeId req ≠ "".
Proof.
  intros Hrun Hid. rewrite (publish_empty_id _ _ Hid) in Hrun. discriminate.
Qed.



(** *** Publication: the statements of the specification *)

(** C4. For a request that gets as far as the grant check and finds for its
    target path a grant that does not match it, the call returns
    AlreadyExists, and the world, with the grant recorded for that path, is
    unchanged. *)
Theorem publish_conflict req w vol access :
  csi.GetVolumeId req ≠ "" →
  volume.GetVolume w (csi.GetVolumeId req) = Some vol →
  volume.StagingPath vol = csi.GetStagingTargetPath req →
  volume.ContainsTargetPaths vol (csi.GetTargetPath req) = Some access →
  Matches access req = false →
  ∃ t,
    publish req w
    = (Err (Error_ codes.AlreadyExists
              "cannot reprovision volume at same path but different parameters"),
       w, t)
    ∧ filter isExecutorCall t = []
    ∧ grantAt (publish req w).1.2 (csi.GetVolumeId req) (csi.GetTargetPath req)
      = Some access.
Proof.
  intros Hid Hget Hst Hgrant Hm.
  pose proof (publish_existing_grant _ _ _ _ Hid Hget Hst Hgrant) as Hrun.
  rewrite Hm in Hrun. exists (registryCalls req).
  split; [exact Hrun|]. split; [reflexivity|].
  rewrite Hrun. unfold grantAt. simpl. rewrite Hget. exact Hgrant.
Qed.

(** A capability never comes with block and mount access at once. *)
Lemma one_access_type_at_most (vCap : option csi.VolumeCapability) :
  notNil (csi.GetBlock vCap) && notNil (csi.GetMount vCap) = false.
Proof.
  by destruct vCap as [[[[[b|]|[m|]]|]]|].
Qed.


(** C6. When a request passes all validation and the executor call made
    for it, [Bind] or [Mount], returns an error: an error that carries a
    gRPC status is returned to the caller as it is, and any other error is
    returned as an Internal status whose message is the message of the
    error. *)
Theorem executor_error_translation req w vol err w' :
  reachesCapabilityChecks req w vol →
  executorReturns Bind Mount req vol w (Some err) w' →
  ∃ err',
    publish req w
    = (Err err', w', (registryCalls req ++ executorCall req)%list)
    ∧ ((FromError err).2 = true → err' = err)
    ∧ ((FromError err).2 = false →
       err' = StatusError (mkStatus codes.Internal (Error err)))
    ∧ (∀ msg, err = OtherError msg →
       Code (FromError err').1 = codes.Internal
       ∧ Message (FromError err').1 = msg).
Proof.
  intros H Hex. exists (translated err).
  split; [exact (publish_executor _ _ _ _ _ H Hex)|].
  destruct err as [s|msg]; simpl.
  - split; [reflexivity|]. split; [discriminate|]. discriminate.
  - split; [discriminate|]. split; [reflexivity|].
    intros msg' [= <-]. split; reflexivity.
Qed.

(** C7. A request that gets as far as the grant check and finds for its
    target path a grant that matches it is answered with success at once:
    nothing after the grant read runs, so neither the volume capability of
    the request is looked at, whatever it is, nor is the executor
    called. *)
Theorem publish_matching_grant req w vol access :
  csi.GetVolumeId req ≠ "" →
  volume.GetVolume w (csi.GetVolumeId req) = Some vol →
  volume.StagingPath vol = csi.GetStagingTargetPath req →
  volume.ContainsTargetPaths vol (csi.GetTargetPath req) = Some access →
  Matches access req = true →
  publish req w = (Ok csi.mkNodePublishVolumeResponse, w, registryCalls req).
Proof.
  intros Hid Hget Hst Hgrant Hm.
  rewrite (publish_existing_grant _ _ _ _ Hid Hget Hst Hgrant), Hm.
  reflexivity.
Qed.

(** C8. The staging check compares the two strings and nothing else. For a
    known volume, the request is refused with FailedPrecondition right
    after the lookup when the recorded and the supplied staging path
    differ; when they are equal, both empty included, the grant read that
    follows the check is made, and with no grant for the target path the
    capability checks decide. *)
Theorem staging_gate_is_equality req w vol :
  csi.GetVolumeId req ≠ "" →
  volume.GetVolume w (csi.GetVolumeId req) = Some vol →
  (volume.StagingPath vol ≠ csi.GetStagingTargetPath req →
   publish req w
   = (Err (Error_ codes.FailedPrecondition
             "volume staging target path is empty or incorrect"),
      w, [GetVolumeCall (csi.GetVolumeId req)]))
  ∧ (volume.StagingPath vol = csi.GetStagingTargetPath req →
     (∃ r w' t, publish req w = (r, w', (registryCalls req ++ t)%list))
     ∧ (volume.ContainsTargetPaths vol (csi.GetTargetPath req) = None →
        (csi.GetVolumeCapability req = None →
         publish req w
         = (Err (Error_ codes.InvalidArgument
                   "volume capability missing in request"),
            w, registryCalls req))
        ∧ (notNil (csi.GetBlock (csi.GetVolumeCapability req)) = true →
           notNil (csi.GetMount (csi.GetVolumeCapability req)) = true →
           publish req w
           = (Err (Error_ codes.InvalidArgument
                     "volume capability request contains both mount and block access"),
              w, registryCalls req))
        ∧ (∀ c, csi.GetVolumeCapability req = Some c →
           csi.Block c = None → csi.Mount c = None →
           publish req w
           = (Err (Error_ codes.InvalidArgument
                     "volume capability request contains neither mount and block access"),
              w, registryCalls req)))).
Proof.
  intros Hid Hget. split.
  - exact (publish_staging_mismatch _ _ _ Hid Hget).
  - intros Hst. split.
    + destruct (volume.ContainsTargetPaths vol (csi.GetTargetPath req))
        as [access|] eqn:Hgrant.
      * eexists _, w, []. rewrite app_nil_r.
        exact (publish_existing_grant _ _ _ _ Hid Hget Hst Hgrant).
      * assert (H : reachesCapabilityChecks req w vol)
          by (repeat split; assumption).
        enter_capability_checks H.
        match goal with
        | |- context [(if isNil ?c then ?a else ?b) w] =>
            destruct ((if isNil c then a else b) w) as [[r1 w1] t1]
        end.
        exists r1, w1, t1. reflexivity.
    + intros Hgrant.
      assert (H : reachesCapabilityChecks req w vol)
        by (repeat split; assumption).
      split; [exact (publish_capability_missing _ _ _ H)|].
      split; [exact (publish_capability_both _ _ _ H)|].
      intros c. exact (publish_capability_neither _ _ _ c H).
Qed.

End Facts.

(** *** The statements on the node of module [scenario] *)

Ltac evaluate := vm_compute; first [reflexivity | discriminate | exact I].

Ltac reaches :=
  unfold reachesCapabilityChecks; repeat split; evaluate.

(** C3 fails on the code. The volume is known and unstaged, the request
    supplies the empty staging path, and the call binds the volume and
    returns success. *)
Lemma publish_unstaged_volume_binds :
  volume.GetVolume scenario.world0 "vol-2" = Some scenario.unstagedVol
  ∧ volume.StagingPath scenario.unstagedVol = ""
  ∧ (scenario.publish scenario.unstagedReq scenario.world0).1.1
    = Ok csi.mkNodePublishVolumeResponse
  ∧ (scenario.publish scenario.unstagedReq scenario.world0).2
    = [GetVolumeCall "vol-2"; ContainsTargetPathsCall "vol-2" "/pods/c/vol";
       BindCall "vol-2" "/pods/c/vol" false ∅].
Proof.
  repeat split; evaluate.
Qed.

Lemma publish_conflict_witness :
  ∃ t,
    scenario.publish scenario.conflictReq scenario.world0
    = (Err (Error_ codes.AlreadyExists
              "cannot reprovision volume at same path but different parameters"),
       scenario.world0, t)
    ∧ filter isExecutorCall t = []
    ∧ grantAt (scenario.publish scenario.conflictReq scenario.world0).1.2
        "vol-3" "/pods/a/vol" = Some scenario.blockGrant.
Proof.
  apply (publish_conflict volume.Matches scenario.GetVolumeError volume.Bind
           volume.Mount scenario.server scenario.conflictReq scenario.world0
           scenario.publishedVol scenario.blockGrant); evaluate.
Defined.



Lemma executor_error_translation_witness :
  (∃ err',
     scenario.publish scenario.blockReq scenario.faultyWorld
     = (Err err', scenario.faultyWorld,
        (registryCalls scenario.blockReq ++ executorCall scenario.blockReq)%list)
     ∧ err' = Error_ codes.Internal "device or resource busy")
  ∧ (∃ err',
       scenario.publish scenario.mountReq scenario.faultyWorld
       = (Err err', scenario.faultyWorld,
          (registryCalls scenario.mountReq ++ executorCall scenario.mountReq)%list)
       ∧ err' = Error_ codes.Unavailable "mount helper not running").
Proof.
  split.
  - destruct (executor_error_translation volume.Matches
                scenario.GetVolumeError volume.Bind volume.Mount
                scenario.server scenario.blockReq scenario.faultyWorld
                scenario.stagedVol (OtherError "device or resource busy")
                scenario.faultyWorld)
      as (err' & Hrun & _ & Hother & _); [reaches|split; evaluate|].
    exists err'. split; [exact Hrun|]. apply Hother. reflexivity.
  - destruct (executor_error_translation volume.Matches
                scenario.GetVolumeError volume.Bind volume.Mount
                scenario.server scenario.mountReq scenario.faultyWorld
                scenario.stagedVol
                (Error_ codes.Unavailable "mount helper not running")
                scenario.faultyWorld)
      as (err' & Hrun & Hstatus & _); [reaches|split; evaluate|].
    exists err'. split; [exact Hrun|]. apply Hstatus. reflexivity.
Defined.

Lemma publish_matching_grant_witness :
  scenario.publish scenario.repeatReq scenario.world0
  = (Ok csi.mkNodePublishVolumeResponse, scenario.world0,
     [GetVolumeCall "vol-3"; ContainsTargetPathsCall "vol-3" "/pods/a/vol"]).
Proof.
  apply (publish_matching_grant volume.Matches scenario.GetVolumeError
           volume.Bind volume.Mount scenario.server
           scenario.repeatReq scenario.world0
           scenario.publishedVol scenario.blockGrant); evaluate.
Defined.

Lemma staging_gate_is_equality_witness :
  volume.StagingPath scenario.unstagedVol = ""
  ∧ csi.GetStagingTargetPath scenario.unstagedReq = ""
  ∧ ∃ r w' t,
      scenario.publish scenario.unstagedReq scenario.world0
      = (r, w', (registryCalls scenario.unstagedReq ++ t)%list).
Proof.
  split; [reflexivity|]. split; [reflexivity|].
  refine (proj1 (proj2 (staging_gate_is_equality volume.Matches
                          scenario.GetVolumeError volume.Bind volume.Mount
                          scenario.server scenario.unstagedReq scenario.world0
                          scenario.unstagedVol _ _) _)); evaluate.
Defined.

End publication.

(** ** Volume publication, path by path *)
Module publication_paths.
Import status node paths.

Section Facts.

Context {Host : Type}.
Variable Matches : volume.VolumeAccess → csi.NodePublishVolumeRequest → bool.
Variable GetVolumeError : string → error.
Variable Bind :
  volume.Volume → string → bool → gmap string string →
  volume.World Host → option error * volume.World Host.
Variable Mount :
  volume.Volume → string → string → list string → bool → gmap string string →
  volume.World Host → option error * volume.World Host.
Variable n : NodeServer.

Local Abbreviation publish :=
  (NodePublishVolume Matches GetVolumeError Bind Mount n).
Local Abbreviation Path := (PublishPath Matches GetVolumeError Bind Mount).

Implicit Types (req : csi.NodePublishVolumeRequest) (w : volume.World Host)
  (vol : volume.Volume) (access : volume.VolumeAccess).

Ltac past_grant_check H :=
  let Hid := fresh "Hid" in
  let Hget := fresh "Hget" in
  let Hst := fresh "Hst" in
  let Hgrant := fresh "Hgrant" in
  destruct H as (Hid & Hget & Hst & Hgrant);
  unfold NodePublishVolume;
  rewrite (bool_decide_eq_false_2 _ Hid);
  unfold bind at 1, callGetVolume; rewrite Hget;
  rewrite (bool_decide_eq_false_2 (_ ≠ _)) by (intros Hne; exact (Hne Hst));
  unfold bind at 1, callContainsTargetPaths; rewrite Hgrant.

Lemma publish_block_unsupported req w vol b :
  reachesCapabilityChecks req w vol →
  csi.GetBlock (csi.GetVolumeCapability req) = Some b →
  csi.GetMount (csi.GetVolumeCapability req) = None →
  volume.IsBlockAccessible vol = false →
  publish req w
  = (Err (Error_ codes.InvalidArgument "volume does not support block access"),
     w, registryCalls req).
Proof.
  intros H Hb Hm Hacc. past_grant_check H.
  destruct (csi.GetVolumeCapability req) as [c|]; [|discriminate].
  simpl in *. rewrite Hb, Hm, Hacc. reflexivity.
Qed.

Lemma publish_mount_unsupported req w vol m :
  reachesCapabilityChecks req w vol →
  csi.GetBlock (csi.GetVolumeCapability req) = None →
  csi.GetMount (csi.GetVolumeCapability req) = Some m →
  volume.IsMountAccessible vol = false →
  publish req w
  = (Err (Error_ codes.InvalidArgument "volume does not support mount access"),
     w, registryCalls req).
Proof.
  intros H Hb Hm Hacc. past_grant_check H.
  destruct (csi.GetVolumeCapability req) as [c|]; [|discriminate].
  simpl in *. rewrite Hb, Hm, Hacc. reflexivity.
Qed.

(** [NodePublishVolume] always ends on one of the paths. *)
Lemma publish_paths req w :
  Path req w (publish req w).1.1 (publish req w).1.2 (publish req w).2.
Proof.
  destruct (decide (csi.GetVolumeId req = "")) as [Hid|Hid].
  { rewrite (publication.publish_empty_id _ _ _ _ _ _ _ Hid).
    by apply EmptyID. }
  destruct (volume.GetVolume w (csi.GetVolumeId req)) as [vol|] eqn:Hget.
  2:{ rewrite (publication.publish_unknown_volume _ _ _ _ _ _ _ Hid Hget).
      by apply UnknownVolume. }
  destruct (decide (volume.StagingPath vol = csi.GetStagingTargetPath req))
    as [Hst|Hst].
  2:{ rewrite (publication.publish_staging_mismatch
                 _ _ _ _ _ _ _ _ Hid Hget Hst).
      by apply (StagingMismatch _ _ _ _ _ _ vol). }
  destruct (volume.ContainsTargetPaths vol (csi.GetTargetPath req))
    as [access|] eqn:Hgrant.
  { rewrite (publication.publish_existing_grant
               _ _ _ _ _ _ _ _ _ Hid Hget Hst Hgrant).
    destruct (Matches access req) eqn:Hm.
    - by apply (GrantMatches _ _ _ _ _ _ vol access).
    - by apply (GrantDiffers _ _ _ _ _ _ vol access). }
  assert (H : reachesCapabilityChecks req w vol) by (repeat split; assumption).
  assert (Hneither : ∀ c,
             csi.GetVolumeCapability req = Some c →
             csi.Block c = None → csi.Mount c = None →
             Path req w (publish req w).1.1 (publish req w).1.2
               (publish req w).2).
  { intros c Hc Hb Hm.
    rewrite (publication.publish_capability_neither
               _ _ _ _ _ _ _ _ _ H Hc Hb Hm).
    by apply (CapabilityNeither _ _ _ _ _ _ vol _ H Hc). }
  destruct (csi.GetVolumeCapability req) as [[[[[b|]|[m|]]|]]|] eqn:Hcap;
    try (by apply (Hneither _ eq_refl)).
  - destruct (volume.IsBlockAccessible vol) eqn:Hacc.
    + destruct (Bind vol (csi.GetTargetPath req) (csi.GetReadonly req)
                  (csi.GetVolumeContext req) w) as [out w'] eqn:Hrun.
      assert (Hex : executorReturns Bind Mount req vol w out w').
      { unfold executorReturns. rewrite Hcap. simpl. split; assumption. }
      rewrite (publication.publish_executor _ _ _ _ _ _ _ _ _ _ H Hex).
      by apply (Executed _ _ _ _ _ _ vol).
    + rewrite (publish_block_unsupported _ _ vol b H)
        by (first [assumption | rewrite Hcap; reflexivity]).
      apply (BlockUnsupported _ _ _ _ _ _ vol b); [exact H|..];
        first [assumption | rewrite Hcap; reflexivity].
  - destruct (volume.IsMountAccessible vol) eqn:Hacc.
    + destruct (Mount vol (csi.GetTargetPath req) (csi.FsType m)
                  (csi.MountFlags m) (csi.GetReadonly req)
                  (csi.GetVolumeContext req) w) as [out w'] eqn:Hrun.
      assert (Hex : executorReturns Bind Mount req vol w out w').
      { unfold executorReturns. rewrite Hcap. simpl. split; assumption. }
      rewrite (publication.publish_executor _ _ _ _ _ _ _ _ _ _ H Hex).
      by apply (Executed _ _ _ _ _ _ vol).
    + rewrite (publish_mount_unsupported _ _ vol m H)
        by (first [assumption | rewrite Hcap; reflexivity]).
      apply (MountUnsupported _ _ _ _ _ _ vol m); [exact H|..];
        first [assumption | rewrite Hcap; reflexivity].
  - rewrite (publication.publish_capability_missing _ _ _ _ _ _ _ _ H Hcap).
    by apply (CapabilityMissing _ _ _ _ _ _ vol).
Qed.

(** Case analysis on the path a run takes. *)
Ltac by_path req w P :=
  pose proof (publish_paths req w) as P;
  destruct (publish req w) as [[?r ?w'] ?t]; simpl in *.

Lemma registry_calls_not_executor req :
  filter isExecutorCall (registryCalls req) = [].
Proof. reflexivity. Qed.

Lemma one_executor_call req vol w out w' :
  executorReturns Bind Mount req vol w out w' →
  ∃ c, executorCall req = [c] ∧ isExecutorCall c = true.
Proof.
  unfold executorReturns, executorCall.
  destruct (csi.GetBlock _), (csi.GetMount _); try contradiction;
    intros _; eexists; split; reflexivity.
Qed.

Lemma executed_calls req vol w out w' :
  executorReturns Bind Mount req vol w out w' →
  filter isExecutorCall (registryCalls req ++ executorCall req)%list
  = executorCall req
  ∧ length (executorCall req) = 1.
Proof.
  intros Hex. destruct (one_executor_call _ _ _ _ _ Hex) as (c & -> & Hc).
  split; [|reflexivity].
  rewrite filter_app, registry_calls_not_executor. simpl.
  rewrite filter_cons_True by (rewrite Hc; exact I). reflexivity.
Qed.

(** X1. [NodePublishVolume] makes no call at all, to the Registry or to
    the executor, exactly when the request has no volume ID; it then
    returns InvalidArgument and leaves the world as it is. With a volume ID
    the first call is the lookup of that ID. *)
Theorem publish_without_volume_id req w :
  ((publish req w).2 = [] ↔ csi.GetVolumeId req = "")
  ∧ (csi.GetVolumeId req = "" →
     publish req w
     = (Err (Error_ codes.InvalidArgument "volume ID missing in request"),
        w, []))
  ∧ (csi.GetVolumeId req ≠ "" →
     ∃ t, (publish req w).2 = GetVolumeCall (csi.GetVolumeId req) :: t).
Proof.
  assert (Hne : csi.GetVolumeId req ≠ "" →
                ∃ t, (publish req w).2 = GetVolumeCall (csi.GetVolumeId req) :: t).
  { intros Hid. by_path req w P.
    destruct P as [Hid'| | | | |? H|? ? ? H|? ? H|? ? H|? ? H|? ? ? H];
      try (by destruct (Hid Hid')); eauto. }
  split; [|split].
  - split.
    + intros Ht. destruct (decide (csi.GetVolumeId req = "")) as [|Hid];
        [assumption|].
      destruct (Hne Hid) as [t Ht']. rewrite Ht in Ht'. discriminate.
    + intros Hid.
      by rewrite (publication.publish_empty_id _ _ _ _ _ _ _ Hid).
  - exact (publication.publish_empty_id _ _ _ _ _ _ _).
  - exact Hne.
Qed.

(** X2. The calls of a request are made in the order lookup, grant read,
    executor call, and stop where the request is answered: they are an
    initial part of that sequence. So there are at most two Registry reads
    and one executor call, and [Bind] and [Mount] are never both called. *)
Theorem publish_calls_in_order req w :
  (publish req w).2 `prefix_of` (registryCalls req ++ executorCall req)%list
  ∧ (length (filter isRegistryCall (publish req w).2) ≤ 2)%nat
  ∧ (length (filter isExecutorCall (publish req w).2) ≤ 1)%nat.
Proof.
  by_path req w P.
  destruct P as [| | | | | | | | | |vol out w1 H Hex];
    try (split; [eexists; reflexivity|split; simpl; lia]).
  destruct (executed_calls _ _ _ _ _ Hex) as [Hf Hl].
    destruct (one_executor_call _ _ _ _ _ Hex) as (c & Hc & Hc').
  split; [reflexivity|]. rewrite Hf, Hl. split; [|lia].
  rewrite Hc, filter_app. simpl.
  rewrite (filter_cons_False _ c)
    by (destruct c; simpl in *; try discriminate; exact id).
  simpl. lia.
Qed.

(** X3. The world changes only through the executor. A run without
    executor call leaves the world as it was; a run with one was for a
    request that passed all validation, and leaves the world that this call
    left. *)
Theorem world_changes_only_by_executor req w :
  (filter isExecutorCall (publish req w).2 = [] → (publish req w).1.2 = w)
  ∧ (filter isExecutorCall (publish req w).2 ≠ [] →
     ∃ vol out,
       reachesCapabilityChecks req w vol
       ∧ executorReturns Bind Mount req vol w out (publish req w).1.2).
Proof.
  by_path req w P.
  destruct P as [| | | | | | | | | |vol out w1 H Hex];
    try (split; [reflexivity|intros Hc; by destruct Hc]).
  destruct (executed_calls _ _ _ _ _ Hex) as [Hf Hl]. rewrite Hf. split.
  - intros Hnil. rewrite Hnil in Hl. discriminate.
  - intros _. by exists vol, out.
Qed.

Lemma validation_code (c : codes.Code) :
  c = codes.InvalidArgument ∨ c = codes.NotFound
  ∨ c = codes.FailedPrecondition ∨ c = codes.AlreadyExists →
  c ∈ validationCodes.
Proof.
  unfold validationCodes. rewrite !elem_of_cons. tauto.
Qed.

(** X4. Every error that [NodePublishVolume] returns carries a gRPC
    status. When the executor was not called its code is one of
    InvalidArgument, NotFound, FailedPrecondition and AlreadyExists. *)
Theorem publish_error_has_status req w err w' t :
  publish req w = (Err err, w', t) →
  ∃ s,
    err = StatusError s
    ∧ (FromError err).2 = true
    ∧ (filter isExecutorCall t = [] → Code s ∈ validationCodes).
Proof.
  intros Hrun. pose proof (publish_paths req w) as P. rewrite Hrun in P.
  simpl in P.
  inversion P as [| | | | | | | | | |vol out w1 H Hex Hres]; subst;
    try (eexists; split; [reflexivity|]; split; [reflexivity|]; intros _;
         apply validation_code; simpl; tauto).
  destruct (executed_calls _ _ _ _ _ Hex) as [Hf Hl].
  assert (Hno : filter isExecutorCall
                  (registryCalls req ++ executorCall req)%list ≠ []).
  { rewrite Hf. intros Hnil. rewrite Hnil in Hl. discriminate. }
  destruct out as [err0|]; [|discriminate]. injection Hres as <-.
  destruct err0 as [s|msg]; eexists; (split; [reflexivity|]);
    (split; [reflexivity|]); intros Hnil; destruct (Hno Hnil).
Qed.

(** X5. Success is returned only for a request with a volume ID, a known
    volume and the staging path recorded for it, and then for one of two
    reasons: the target path has a grant that matches the request, and
    nothing was done; or it has none, the request passed the capability
    checks and the executor call made for it succeeded. *)
Theorem publish_success_sound req w resp w' t :
  publish req w = (Ok resp, w', t) →
  csi.GetVolumeId req ≠ ""
  ∧ ∃ vol,
      volume.GetVolume w (csi.GetVolumeId req) = Some vol
      ∧ volume.StagingPath vol = csi.GetStagingTargetPath req
      ∧ ((∃ access,
            volume.ContainsTargetPaths vol (csi.GetTargetPath req)
            = Some access
            ∧ Matches access req = true ∧ w' = w ∧ t = registryCalls req)
         ∨ (volume.ContainsTargetPaths vol (csi.GetTargetPath req) = None
            ∧ executorReturns Bind Mount req vol w None w'
            ∧ t = (registryCalls req ++ executorCall req)%list)).
Proof.
  intros Hrun. pose proof (publish_paths req w) as P. rewrite Hrun in P.
  simpl in P.
  inversion P as [| | |vol access Hid Hget Hst Hgrant Hm| | | | | |
                  |vol out w1 H Hex Hres]; subst.
  - split; [exact Hid|]. exists vol. split; [exact Hget|].
    split; [exact Hst|]. left. by exists access.
  - destruct out as [err0|]; [discriminate|].
    destruct H as (Hid & Hget & Hst & Hgrant).
    split; [exact Hid|]. exists vol. split; [exact Hget|].
    split; [exact Hst|]. right. done.
Qed.

(** X6. The executor is only called as the request says and only where
    the volume allows it: a [Bind] among the calls of a request has the
    request's volume ID, target path, read-only flag and volume context, the
    request asks for no mount access, and the volume is known, staged as
    requested and block accessible; a [Mount] has in addition the
    filesystem type and the mount flags of the request, which asks for no
    block access, and the volume is mount accessible. *)
Theorem executor_called_as_requested req w c :
  c ∈ (publish req w).2 → asRequested req w c.
Proof.
  assert (Hreg : c ∈ registryCalls req → asRequested req w c).
  { unfold registryCalls. rewrite !elem_of_cons, elem_of_nil.
    intros [-> | [-> | []]]; exact I. }
  by_path req w P.
  destruct P as [| | | | | | | | | |vol out w1 H Hex]; try exact Hreg;
    try (rewrite ?elem_of_cons, elem_of_nil; intros Hc;
         repeat destruct Hc as [->|Hc]; by simpl).
  rewrite elem_of_app. intros [Hc|Hc]; [exact (Hreg Hc)|].
  destruct H as (Hid & Hget & Hst & Hgrant).
  unfold executorReturns, executorCall in *.
  destruct (csi.GetBlock (csi.GetVolumeCapability req)) as [b|] eqn:Hb,
    (csi.GetMount (csi.GetVolumeCapability req)) as [m|] eqn:Hm;
    try contradiction; destruct Hex as [Hacc _];
    apply list_elem_of_singleton in Hc; subst c; simpl.
  - rewrite Hm. repeat split. by exists vol.
  - rewrite Hb, Hm. repeat split; [by exists m|by exists vol].
Qed.

(** X7. [NodePublishVolume] does not write the Registry: with [Bind] and
    [Mount] that leave the Registry as it is, the Registry after any
    request, answered with success or with an error, is the Registry
    before. *)
Theorem publish_keeps_registry req w :
  (∀ vol targetPath ro vCtx w0,
     volume.registry (Bind vol targetPath ro vCtx w0).2 = volume.registry w0) →
  (∀ vol targetPath fs flags ro vCtx w0,
     volume.registry (Mount vol targetPath fs flags ro vCtx w0).2
     = volume.registry w0) →
  volume.registry (publish req w).1.2 = volume.registry w.
Proof.
  intros HBind HMount. by_path req w P.
  destruct P as [| | | | | | | | | |vol out w1 H Hex]; try reflexivity.
  unfold executorReturns in Hex.
  destruct (csi.GetBlock _), (csi.GetMount _); try contradiction;
    destruct Hex as [_ Hrun].
  - specialize (HBind vol (csi.GetTargetPath req) (csi.GetReadonly req)
                  (csi.GetVolumeContext req) w).
    by rewrite Hrun in HBind.
  - match type of Hrun with
    | Mount ?a ?b ?c ?d ?e ?f ?g = _ => specialize (HMount a b c d e f g)
    end.
    by rewrite Hrun in HMount.
Qed.

Lemma length_append (s1 s2 : string) :
  String.length (s1 +:+ s2) = (String.length s1 + String.length s2)%nat.
Proof.
  induction s1 as [|a s1 IH]; [reflexivity|].
  change (S (String.length (s1 +:+ s2))
          = S (String.length s1 + String.length s2)).
  by rewrite IH.
Qed.

(** The message of an error with a status is longer than the message of
    that status. *)
Lemma status_message_grows (s : Status) : Error (StatusError s) ≠ Message s.
Proof.
  intros Heq. apply (f_equal String.length) in Heq. simpl in Heq.
  rewrite !length_append in Heq. simpl in Heq. lia.
Qed.

(** X8. For a volume ID that the Registry does not know the caller gets
    NotFound after the one lookup, with the world unchanged. The status is
    made anew from the text of the lookup error: the code is NotFound
    whatever status the lookup error carried, the message is that error's
    text, and the lookup error itself is never what is returned. *)
Theorem unknown_volume_is_not_found req w :
  csi.GetVolumeId req ≠ "" →
  volume.GetVolume w (csi.GetVolumeId req) = None →
  ∃ s,
    publish req w
    = (Err (StatusError s), w, [GetVolumeCall (csi.GetVolumeId req)])
    ∧ Code s = codes.NotFound
    ∧ Message s = Error (GetVolumeError (csi.GetVolumeId req))
    ∧ StatusError s ≠ GetVolumeError (csi.GetVolumeId req).
Proof.
  intros Hid Hget. eexists. split.
  { exact (publication.publish_unknown_volume _ _ _ _ _ _ _ Hid Hget). }
  split; [reflexivity|]. split; [reflexivity|].
  destruct (GetVolumeError (csi.GetVolumeId req)) as [s0|msg];
    [|discriminate].
  intros [= Heq]. exact (status_message_grows s0 (f_equal Message Heq)).
Qed.

(** X9. A request that passed the checks before and asks for one access
    type which the volume does not support is refused with InvalidArgument:
    block access on a volume that is not block accessible, mount access on
    a volume that is not mount accessible. The executor is not called and
    the world is unchanged. *)
Theorem publish_unsupported_access req w vol :
  reachesCapabilityChecks req w vol →
  (∀ b,
     csi.GetBlock (csi.GetVolumeCapability req) = Some b →
     csi.GetMount (csi.GetVolumeCapability req) = None →
     volume.IsBlockAccessible vol = false →
     publish req w
     = (Err (Error_ codes.InvalidArgument
               "volume does not support block access"),
        w, registryCalls req))
  ∧ (∀ m,
       csi.GetBlock (csi.GetVolumeCapability req) = None →
       csi.GetMount (csi.GetVolumeCapability req) = Some m →
       volume.IsMountAccessible vol = false →
       publish req w
       = (Err (Error_ codes.InvalidArgument
                 "volume does not support mount access"),
          w, registryCalls req)).
Proof.
  intros H. split.
  - intros b. exact (publish_block_unsupported _ _ _ b H).
  - intros m. exact (publish_mount_unsupported _ _ _ m H).
Qed.

Lemma reaches_same_registry req w1 w2 vol :
  volume.registry w1 = volume.registry w2 →
  reachesCapabilityChecks req w1 vol → reachesCapabilityChecks req w2 vol.
Proof.
  unfold reachesCapabilityChecks, volume.GetVolume. by intros <-.
Qed.

(** The calls of a request that reaches the executor call, in any world. *)
Lemma publish_executes req w vol :
  reachesCapabilityChecks req w vol →
  (∃ b, csi.GetBlock (csi.GetVolumeCapability req) = Some b
        ∧ csi.GetMount (csi.GetVolumeCapability req) = None
        ∧ volume.IsBlockAccessible vol = true)
  ∨ (∃ m, csi.GetBlock (csi.GetVolumeCapability req) = None
          ∧ csi.GetMount (csi.GetVolumeCapability req) = Some m
          ∧ volume.IsMountAccessible vol = true) →
  (publish req w).2 = (registryCalls req ++ executorCall req)%list.
Proof.
  intros H Hcap.
  assert (∃ out w', executorReturns Bind Mount req vol w out w')
    as (out & w' & Hex).
  { unfold executorReturns.
    destruct Hcap as [(b & -> & -> & Hacc)|(m & -> & -> & Hacc)].
    - destruct (Bind vol (csi.GetTargetPath req) (csi.GetReadonly req)
                  (csi.GetVolumeContext req) w) as [out w'].
      by exists out, w'.
    - destruct (Mount vol (csi.GetTargetPath req) (csi.FsType m)
                  (csi.MountFlags m) (csi.GetReadonly req)
                  (csi.GetVolumeContext req) w) as [out w'].
      by exists out, w'. }
  by rewrite (publication.publish_executor _ _ _ _ _ _ _ _ _ _ H Hex).
Qed.

(** X10. Which calls a request makes, and what it is answered when the
    executor is not called, depends on the Registry alone: in two worlds
    with the same Registry the same calls are made, and a request that is
    answered without executor call gets the same answer in both. *)
Theorem validation_reads_registry_only req w1 w2 :
  volume.registry w1 = volume.registry w2 →
  (publish req w1).2 = (publish req w2).2
  ∧ (filter isExecutorCall (publish req w1).2 = [] →
     (publish req w1).1.1 = (publish req w2).1.1).
Proof.
  intros Hreg.
  assert (Hget : ∀ vID, volume.GetVolume w1 vID = volume.GetVolume w2 vID)
    by (intros vID; unfold volume.GetVolume; by rewrite Hreg).
  pose proof (reaches_same_registry req w1 w2) as Hreach.
  pose proof (publish_paths req w1) as P.
  destruct (publish req w1) as [[r1 w1'] t1]. simpl in *.
  destruct P as [Hid|Hid Hg|vol Hid Hg Hst|vol access Hid Hg Hst Hgr Hm
                 |vol access Hid Hg Hst Hgr Hm|vol H Hcap|vol b m H Hb Hm
                 |vol c H Hcap Hb Hm|vol b H Hb Hm Hacc|vol m H Hb Hm Hacc
                 |vol out w1'' H Hex];
    try rewrite Hget in Hg; try (apply Hreach in H; [|exact Hreg]).
  - by rewrite (publication.publish_empty_id _ _ _ _ _ _ _ Hid).
  - by rewrite (publication.publish_unknown_volume _ _ _ _ _ _ _ Hid Hg).
  - by rewrite (publication.publish_staging_mismatch
                  _ _ _ _ _ _ _ _ Hid Hg Hst).
  - by rewrite (publication.publish_existing_grant
                  _ _ _ _ _ _ _ _ _ Hid Hg Hst Hgr), Hm.
  - by rewrite (publication.publish_existing_grant
                  _ _ _ _ _ _ _ _ _ Hid Hg Hst Hgr), Hm.
  - by rewrite (publication.publish_capability_missing
                  _ _ _ _ _ _ _ _ H Hcap).
  - by rewrite (publication.publish_capability_both _ _ _ _ _ _ _ _ H)
      by (first [by rewrite Hb | by rewrite Hm]).
  - by rewrite (publication.publish_capability_neither
                  _ _ _ _ _ _ _ _ _ H Hcap Hb Hm).
  - by rewrite (publish_block_unsupported _ _ _ b H Hb Hm Hacc).
  - by rewrite (publish_mount_unsupported _ _ _ m H Hb Hm Hacc).
  - destruct (executed_calls _ _ _ _ _ Hex) as [Hf Hl]. split.
    + symmetry. apply (publish_executes _ _ vol H).
      unfold executorReturns in Hex.
      destruct (csi.GetBlock _) as [b|], (csi.GetMount _) as [m|];
        try contradiction; destruct Hex as [Hacc _].
      * left. by exists b.
      * right. by exists m.
    + rewrite Hf. intros Hnil. rewrite Hnil in Hl. discriminate.
Qed.

End Facts.

(** *** The statements on the nodes of [scenario] and [scenario2] *)

Ltac run := vm_compute; first [reflexivity | discriminate | exact I].

Lemma publish_without_volume_id_witness :
  csi.GetVolumeId scenario2.noIdReq = ""
  ∧ scenario.publish scenario2.noIdReq scenario.world0
    = (Err (Error_ codes.InvalidArgument "volume ID missing in request"),
       scenario.world0, []).
Proof.
  split; [reflexivity|].
  apply (publish_without_volume_id volume.Matches scenario.GetVolumeError
           volume.Bind volume.Mount scenario.server scenario2.noIdReq
           scenario.world0).
  reflexivity.
Defined.

Lemma world_changes_only_by_executor_witness :
  filter isExecutorCall
    (scenario.publish scenario.conflictReq scenario.world0).2 = []
  ∧ (scenario.publish scenario.conflictReq scenario.world0).1.2
    = scenario.world0.
Proof.
  split; [run|].
  apply (world_changes_only_by_executor volume.Matches
           scenario.GetVolumeError volume.Bind volume.Mount scenario.server
           scenario.conflictReq scenario.world0).
  run.
Defined.

Lemma publish_error_has_status_witness :
  ∃ s,
    Error_ codes.AlreadyExists
      "cannot reprovision volume at same path but different parameters"
    = StatusError s
    ∧ (FromError
         (Error_ codes.AlreadyExists
            "cannot reprovision volume at same path but different parameters")).2
      = true
    ∧ (filter isExecutorCall (registryCalls scenario.conflictReq) = [] →
       Code s ∈ validationCodes).
Proof.
  apply (publish_error_has_status volume.Matches scenario.GetVolumeError
           volume.Bind volume.Mount scenario.server scenario.conflictReq
           scenario.world0 _ scenario.world0).
  run.
Defined.

Lemma publish_success_sound_witness :
  scenario.publish scenario.blockReq scenario.world0
  = (Ok csi.mkNodePublishVolumeResponse, scenario.boundWorld,
     (registryCalls scenario.blockReq ++ executorCall scenario.blockReq)%list)
  ∧ csi.GetVolumeId scenario.blockReq ≠ "".
Proof.
  assert (Hrun : scenario.publish scenario.blockReq scenario.world0
                 = (Ok csi.mkNodePublishVolumeResponse, scenario.boundWorld,
                    (registryCalls scenario.blockReq
                     ++ executorCall scenario.blockReq)%list)) by run.
  split; [exact Hrun|].
  exact (proj1 (publish_success_sound volume.Matches scenario.GetVolumeError
                  volume.Bind volume.Mount scenario.server scenario.blockReq
                  scenario.world0 _ _ _ Hrun)).
Defined.

Lemma executor_called_as_requested_witness :
  MountCall "vol-1" "/pods/b/vol" "xfs" ["noatime"] false ∅
  ∈ (scenario.publish scenario.mountReq scenario.world0).2
  ∧ asRequested scenario.mountReq scenario.world0
      (MountCall "vol-1" "/pods/b/vol" "xfs" ["noatime"] false ∅).
Proof.
  assert (Hc : MountCall "vol-1" "/pods/b/vol" "xfs" ["noatime"] false ∅
               ∈ (scenario.publish scenario.mountReq scenario.world0).2).
  { assert (Ht : (scenario.publish scenario.mountReq scenario.world0).2
                 = [GetVolumeCall "vol-1";
                    ContainsTargetPathsCall "vol-1" "/pods/b/vol";
                    MountCall "vol-1" "/pods/b/vol" "xfs" ["noatime"] false ∅])
      by run.
    rewrite Ht. do 2 apply list_elem_of_further. apply list_elem_of_here. }
  split; [exact Hc|].
  exact (executor_called_as_requested volume.Matches scenario.GetVolumeError
           volume.Bind volume.Mount scenario.server scenario.mountReq
           scenario.world0 _ Hc).
Defined.

Lemma ExecutorBind_keeps_registry vol targetPath ro vCtx
    (w : volume.World volume.HostFS) :
  volume.registry (volume.ExecutorBind vol targetPath ro vCtx w).2
  = volume.registry w.
Proof.
  unfold volume.ExecutorBind.
  by destruct (volume.faults (volume.host w) !! targetPath).
Defined.

Lemma ExecutorMount_keeps_registry vol targetPath fs flags ro vCtx
    (w : volume.World volume.HostFS) :
  volume.registry (volume.ExecutorMount vol targetPath fs flags ro vCtx w).2
  = volume.registry w.
Proof.
  unfold volume.ExecutorMount.
  by destruct (volume.faults (volume.host w) !! targetPath).
Defined.

Lemma publish_keeps_registry_witness :
  volume.registry
    (scenario2.publishOnHost scenario.mountReq scenario.world0).1.2
  = volume.registry scenario.world0.
Proof.
  exact (publish_keeps_registry volume.Matches scenario.GetVolumeError
           volume.ExecutorBind volume.ExecutorMount scenario.server
           scenario.mountReq scenario.world0 ExecutorBind_keeps_registry
           ExecutorMount_keeps_registry).
Defined.

Lemma unknown_volume_is_not_found_witness :
  ∃ s,
    scenario2.publish scenario2.unknownReq scenario.world0
    = (Err (StatusError s), scenario.world0, [GetVolumeCall "vol-9"])
    ∧ Code s = codes.NotFound
    ∧ Message s
      = "rpc error: code = Internal desc = registry unavailable for vol-9"
    ∧ StatusError s ≠ scenario2.GetVolumeError "vol-9".
Proof.
  apply (unknown_volume_is_not_found volume.Matches scenario2.GetVolumeError
           volume.Bind volume.Mount scenario.server scenario2.unknownReq
           scenario.world0); run.
Defined.

Lemma publish_unsupported_access_witness :
  reachesCapabilityChecks scenario2.mountOnBlockOnlyReq scenario2.world1
    scenario2.blockOnlyVol
  ∧ scenario.publish scenario2.mountOnBlockOnlyReq scenario2.world1
    = (Err (Error_ codes.InvalidArgument
              "volume does not support mount access"),
       scenario2.world1, registryCalls scenario2.mountOnBlockOnlyReq)
  ∧ scenario.publish scenario2.blockOnMountOnlyReq scenario2.world1
    = (Err (Error_ codes.InvalidArgument
              "volume does not support block access"),
       scenario2.world1, registryCalls scenario2.blockOnMountOnlyReq).
Proof.
  assert (H1 : reachesCapabilityChecks scenario2.mountOnBlockOnlyReq
                 scenario2.world1 scenario2.blockOnlyVol)
    by (unfold reachesCapabilityChecks; repeat split; run).
  assert (H2 : reachesCapabilityChecks scenario2.blockOnMountOnlyReq
                 scenario2.world1 scenario2.mountOnlyVol)
    by (unfold reachesCapabilityChecks; repeat split; run).
  split; [exact H1|]. split.
  - refine (proj2 (publish_unsupported_access volume.Matches
                     scenario.GetVolumeError volume.Bind volume.Mount
                     scenario.server _ _ _ H1) _ _ _ _); run.
  - refine (proj1 (publish_unsupported_access volume.Matches
                     scenario.GetVolumeError volume.Bind volume.Mount
                     scenario.server _ _ _ H2) _ _ _ _); run.
Defined.

Lemma validation_reads_registry_only_witness :
  volume.registry scenario.world0 = volume.registry scenario.faultyWorld
  ∧ (scenario.publish scenario.blockReq scenario.world0).2
    = (scenario.publish scenario.blockReq scenario.faultyWorld).2.
Proof.
  split; [reflexivity|].
  exact (proj1 (validation_reads_registry_only volume.Matches
                  scenario.GetVolumeError volume.Bind volume.Mount
                  scenario.server scenario.blockReq scenario.world0
                  scenario.faultyWorld eq_refl)).
Defined.

End publication_paths.

(** ** Volume publication and the grants it leaves

    [NodePublishVolume] run with [Bind], [Mount] and [Matches] of module
    [volume]. *)
Module publication_grants.
Import status node paths.

Section Facts.

Variable GetVolumeError : string → error.
Variable n : NodeServer.

Implicit Types (req : csi.NodePublishVolumeRequest)
  (w : volume.World volume.HostFS) (vol : volume.Volume)
  (access : volume.VolumeAccess).








End Facts.

Ltac run := vm_compute; first [reflexivity | discriminate | exact I].



End publication_grants.
